(** * Request authentication and authorisation middleware

    A shallow embedding of [src/lib/restapi/auth.ts]: the Express
    middleware that decides who the caller of the REST API is and
    whether the caller may touch the class (tenant) and project named
    in the request path.

    Every middleware is a function from the request to the request as
    the middleware leaves it (the code mutates [req.user] and
    [req.project]) paired with the one thing the middleware did to end
    its turn: wrote a response, called [next()], called [next(err)] or
    threw. The external modules ([jwt-decode], [express-jwt], the
    store, the session-users module) are parameters of the model. *)

From Stdlib Require Import String Ascii List Bool ZArith.
Import ListNotations.
Open Scope string_scope.

(** ** JavaScript values used by the middleware *)

(** An [Error] object: its [name] and its [message]. *)
Inductive JsError : Type :=
| mkError (name message : string).

(** The completion of a call that may throw, or of an awaited promise
    that may reject. *)
Inductive Completion (A : Type) : Type :=
| Normal (a : A)
| Thrown (e : JsError).

Arguments Normal {A} a.
Arguments Thrown {A} e.

Definition bind {A B : Type} (c : Completion A) (k : A -> Completion B)
  : Completion B :=
  match c with
  | Normal a => k a
  | Thrown e => Thrown e
  end.

Notation "x <- c ;; k" := (bind c (fun x => k))
  (at level 61, c at next level, right associativity).

(** [try { body } catch (err) { handler }] where every path of the body
    and of the handler ends the middleware's turn. *)
Definition try_catch {A : Type} (body : Completion A) (handler : JsError -> A) : A :=
  match body with
  | Normal a => a
  | Thrown err => handler err
  end.

(** A property that holds a string or is [undefined]; [None] is
    [undefined]. *)
Definition strict_eq (a b : option string) : bool :=
  match a, b with
  | Some x, Some y => String.eqb x y
  | None, None => true
  | _, _ => false
  end.

(** The value of [a && b] when [a] is an object or [undefined] and [b]
    is a boolean: [undefined] when [a] is, else [b]. [None] is
    [undefined]. *)
Definition js_and {A : Type} (a : option A) (b : A -> bool) : option bool :=
  match a with
  | None => None
  | Some x => Some (b x)
  end.

(** [v === false] for a value that is a boolean or [undefined]. *)
Definition strict_eq_false (v : option bool) : bool :=
  match v with
  | Some false => true
  | _ => false
  end.

(** [s.split(sep)] for a separator of one character: the pieces between
    the separators, empty pieces included; the empty string gives one
    empty piece. *)
Fixpoint split (s : string) (sep : ascii) : list string :=
  match s with
  | EmptyString => [EmptyString]
  | String c rest =>
      if Ascii.eqb c sep then EmptyString :: split rest sep
      else match split rest sep with
           | [] => [String c EmptyString]
           | piece :: pieces => String c piece :: pieces
           end
  end.

(** A request header as Node hands it over: a string or a list of
    strings; a missing header is [None] at the use site. *)
Inductive HeaderValue : Type :=
| HStr (s : string)
| HArr (l : list string).

(** Truthiness of a header value: the empty string is falsy, any array
    is truthy, [undefined] is falsy. *)
Definition truthy (h : option HeaderValue) : bool :=
  match h with
  | None => false
  | Some (HStr s) => negb (String.eqb s "")
  | Some (HArr _) => true
  end.

(** [typeof h === 'string'] *)
Definition typeof_string (h : option HeaderValue) : bool :=
  match h with
  | Some (HStr _) => true
  | _ => false
  end.

(** [h.split(' ')]; only evaluated behind the [typeof] guard, the other
    cases are never reached. *)
Definition header_split (h : option HeaderValue) : list string :=
  match h with
  | Some (HStr s) => split s " "%char
  | _ => []
  end.

(** ** Data model *)

(** Modelled from the spec: the types of [../db/db-types], which the
    source imports as [Objects]; the fields are the ones [auth.ts]
    reads, under the names it reads them by. *)
Module TemporaryUser.
Record t : Type := mk { id : string; token : string }.
End TemporaryUser.

(** What [jwtDecode] hands back: the payload of the token as the caller
    wrote it. The decoder does not throw on the payload [null]; a
    payload that is an object is taken at the type the source declares
    for it. *)
Inductive Payload : Type :=
| PayloadNull
| PayloadObject (fields : TemporaryUser.t).

Module Project.
Record t : Type := mk {
  id : string;
  userid : string;
  classid : string;
  isCrowdSourced : bool
}.
End Project.

Module ClassTenant.
Record t : Type := mk { tenant : string; isManaged : bool }.
End ClassTenant.

(** [req.user.app_metadata]: either field may be [undefined]. *)
Record AppMetadata : Type := mkAppMetadata {
  role : option string;
  tenant : option string
}.

(** [req.user]: the subject, the structured claims when present, the
    session payload when present, and the remaining string-valued
    claims of the token by key. *)
Record User : Type := mkUser {
  sub : string;
  app_metadata : option AppMetadata;
  session : option TemporaryUser.t;
  claims : list (string * string)
}.

(** [user[key]] on the raw claims; [undefined] when the key is absent. *)
Fixpoint claim (key : string) (cs : list (string * string)) : option string :=
  match cs with
  | [] => None
  | (k, v) :: rest => if String.eqb k key then Some v else claim key rest
  end.

Record Params : Type := mkParams {
  classid : string;
  studentid : string;
  projectid : string
}.

(** The part of [Express.Request] the middleware reads and writes;
    [project] is the field [RequestWithProject] adds. *)
Record Request : Type := mkRequest {
  params : Params;
  headers_authorization : option HeaderValue;
  user : option User;
  project : option Project.t
}.

Definition set_user (req : Request) (u : User) : Request :=
  mkRequest (params req) (headers_authorization req) (Some u) (project req).

Definition set_project (req : Request) (p : Project.t) : Request :=
  mkRequest (params req) (headers_authorization req) (user req) (Some p).

(** ** Responses *)

Module httpstatus.
Definition UNAUTHORIZED : Z := 401.
Definition FORBIDDEN : Z := 403.
Definition NOT_FOUND : Z := 404.
End httpstatus.

(** What a middleware writes to [res]: a call of one of the helpers of
    [./errors], or [res.status(s).json({ error : msg })]. *)
Inductive Response : Type :=
| notAuthorised
| forbidden
| supervisorOnly
| notFound
| status_json (status : Z) (error : string).

(** Modelled from the spec: the status each helper of [./errors]
    answers with (unauthenticated is 401, the forbidden variants are
    403, not-found is 404). *)
Definition status_of (r : Response) : Z :=
  match r with
  | notAuthorised => httpstatus.UNAUTHORIZED
  | forbidden => httpstatus.FORBIDDEN
  | supervisorOnly => httpstatus.FORBIDDEN
  | notFound => httpstatus.NOT_FOUND
  | status_json s _ => s
  end.

(** How a middleware ends its turn. *)
Inductive Outcome : Type :=
| Respond (r : Response)
| Next
| NextErr (err : JsError)
| Throw (err : JsError).

Definition Handled : Type := (Request * Outcome)%type.

Definition ROLE_CLAIM : string := "https://machinelearningforkids.co.uk/api/role".
Definition TENANT_CLAIM : string := "https://machinelearningforkids.co.uk/api/tenant".

(** Reading a property of [undefined]. *)
Definition TypeError_undefined (prop : string) : JsError :=
  mkError "TypeError" prop.

(** Reading a property of [null]. *)
Definition TypeError_null (prop : string) : JsError :=
  mkError "TypeError" prop.

(** [decoded.prop]: the object behind the payload, or the [TypeError]
    that reading a property of [null] throws. *)
Definition read_payload (decoded : Payload) (prop : string)
  : Completion TemporaryUser.t :=
  match decoded with
  | PayloadNull => Thrown (TypeError_null prop)
  | PayloadObject fields => Normal fields
  end.

(** ** The middleware *)

Section Middleware.

(** [sessionusers.CLASS_NAME] *)
Variable CLASS_NAME : string.

(** [jwtDecode(token)]; the argument is [undefined] when the header
    has no second piece. *)
Variable jwtDecode : option string -> Completion Payload.

(** [await sessionusers.checkSessionToken(studentid, token)] *)
Variable checkSessionToken : string -> string -> Completion bool.

(** The [express-jwt] middleware configured for Auth0. *)
Variable auth0Authenticate : Request -> Handled.

(** [await store.getClassTenant(tenant)] *)
Variable getClassTenant : string -> Completion ClassTenant.t.

(** [await store.getProject(projectid)] *)
Variable getProject : string -> Completion (option Project.t).

Definition sessionusersAuthenticate (jwtTokenString : option string)
           (req : Request) : Handled :=
  match jwtDecode jwtTokenString with
  | Thrown _ => (req, Respond notAuthorised)
  | Normal decoded =>
      try_catch
        (fields <- read_payload decoded "token" ;;
         sessionUserIsAuthenticated <-
           checkSessionToken (studentid (params req)) (TemporaryUser.token fields) ;;
         Normal
           (if sessionUserIsAuthenticated : bool then
              (set_user req
                 {| sub := TemporaryUser.id fields;
                    app_metadata :=
                      Some {| role := Some "student";
                              tenant := Some CLASS_NAME |};
                    session := Some fields;
                    claims := [] |},
               Next)
            else (req, Respond notAuthorised)))
        (fun err => (req, NextErr err))
  end.

Definition authenticate (req : Request) : Handled :=
  let authorization := headers_authorization req in
  if String.eqb (classid (params req)) CLASS_NAME
     && truthy authorization
     && typeof_string authorization
     && strict_eq (nth_error (header_split authorization) 0) (Some "Bearer")
  then
    let jwtToken := nth_error (header_split authorization) 1 in
    sessionusersAuthenticate jwtToken req
  else
    auth0Authenticate req.

Definition getValuesFromToken (req : Request) : Request :=
  match user req with
  | Some u =>
      match app_metadata u with
      | None =>
          set_user req
            {| sub := sub u;
               app_metadata :=
                 Some {| role := claim ROLE_CLAIM (claims u);
                         tenant := claim TENANT_CLAIM (claims u) |};
               session := session u;
               claims := claims u |}
      | Some _ => req
      end
  | None => req
  end.

Definition checkValidUser (req : Request) : Handled :=
  let req := getValuesFromToken req in
  match user req with
  | None => (req, Respond notAuthorised)
  | Some u =>
      match app_metadata u with
      | None => (req, Respond notAuthorised)
      | Some am =>
          if negb (strict_eq (tenant am) (Some (classid (params req))))
          then (req, Respond forbidden)
          else (req, Next)
      end
  end.

Definition requireSupervisor (req : Request) : Handled :=
  match user req with
  | None => (req, Throw (TypeError_undefined "app_metadata"))
  | Some u =>
      match app_metadata u with
      | None => (req, Throw (TypeError_undefined "role"))
      | Some am =>
          if negb (strict_eq (role am) (Some "supervisor"))
          then (req, Respond supervisorOnly)
          else (req, Next)
      end
  end.

Definition requireSiteAdmin (req : Request) : Handled :=
  let req := getValuesFromToken req in
  match user req with
  | None => (req, Throw (TypeError_undefined "app_metadata"))
  | Some u =>
      match app_metadata u with
      | None => (req, Throw (TypeError_undefined "role"))
      | Some am =>
          if negb (strict_eq (role am) (Some "siteadmin"))
          then (req, Respond (status_json httpstatus.FORBIDDEN "Forbidden"))
          else (req, Next)
      end
  end.

Definition ensureUnmanaged (req : Request) : Handled :=
  let tenant := classid (params req) in
  try_catch
    (policy <- getClassTenant tenant ;;
     Normal
       (if ClassTenant.isManaged policy then
          (req, Respond (status_json httpstatus.FORBIDDEN
                           "Access to API keys is forbidden for managed tenants"))
        else (req, Next)))
    (fun err => (req, NextErr err)).

Definition verifyProjectAuth (req : Request) (isCrowdSourcedAllowed : bool)
  : Handled :=
  let classid := classid (params req) in
  let userid := studentid (params req) in
  let projectid := projectid (params req) in
  try_catch
    (found <- getProject projectid ;;
     Normal
       (match found with
        | None => (req, Respond notFound)
        | Some project =>
            if negb (String.eqb (Project.classid project) classid)
            then (req, Respond forbidden)
            else
              let isOwner :=
                js_and (user req)
                  (fun u =>
                     String.eqb (Project.userid project) (sub u)
                     && String.eqb (Project.userid project) userid) in
              let modifiedRequest := set_project req project in
              if strict_eq_false isOwner then
                if negb isCrowdSourcedAllowed
                   || negb (Project.isCrowdSourced project)
                then (req, Respond forbidden)
                else (modifiedRequest, Next)
              else (modifiedRequest, Next)
        end))
    (fun err => (req, NextErr err)).

Definition verifyProjectOwner (req : Request) : Handled :=
  verifyProjectAuth req false.

Definition verifyProjectAccess (req : Request) : Handled :=
  verifyProjectAuth req true.

End Middleware.


(** ** A concrete deployment, for running the middleware *)

Module Demo.

Definition CLASS_NAME : string := "session-users".

Definition InvalidTokenError : JsError :=
  mkError "InvalidTokenError" "Invalid token specified".

Definition StoreError : JsError :=
  mkError "Error" "connection lost".

Definition UnauthorizedError : JsError :=
  mkError "UnauthorizedError" "No authorization token was found".

Definition alice_session : TemporaryUser.t :=
  TemporaryUser.mk "alice" "s3cret".

(** A token whose payload part is the base64 of the four letters
    [null]. *)
Definition null_payload_jwt : string := "e30.bnVsbA.sig".

(** Decodes alice's token to her session and the token with the
    payload [null] to [null]; every other value, [undefined]
    included, makes the decoder throw. *)
Definition jwtDecode (t : option string) : Completion Payload :=
  match t with
  | Some s => if String.eqb s "alice.jwt" then Normal (PayloadObject alice_session)
              else if String.eqb s null_payload_jwt then Normal PayloadNull
              else Thrown InvalidTokenError
  | None => Thrown InvalidTokenError
  end.

(** A principal as a token leaves it that carries neither structured
    fields nor the namespaced claims. *)
Definition unclaimed : User :=
  {| sub := "auth0|nobody"; app_metadata := None; session := None; claims := [] |}.

(** One live session, and one member whose lookup faults. *)
Definition checkSessionToken (studentid token : string) : Completion bool :=
  if String.eqb studentid "faulty" then Thrown StoreError
  else Normal (String.eqb studentid "alice" && String.eqb token "s3cret").

Definition teacher : User :=
  {| sub := "auth0|teacher";
     app_metadata := None;
     session := None;
     claims := [ (ROLE_CLAIM, "supervisor"); (TENANT_CLAIM, "apple") ] |}.

Definition teacher_normalized : User :=
  {| sub := "auth0|teacher";
     app_metadata := Some {| role := Some "supervisor"; tenant := Some "apple" |};
     session := None;
     claims := [ (ROLE_CLAIM, "supervisor"); (TENANT_CLAIM, "apple") ] |}.

Definition bob : User :=
  {| sub := "auth0|bob";
     app_metadata := Some {| role := Some "student"; tenant := Some "apple" |};
     session := None;
     claims := [] |}.

(** An external verifier that accepts one header value and hands every
    other request to the error handler. *)
Definition auth0Authenticate (req : Request) : Handled :=
  match headers_authorization req with
  | Some (HStr h) =>
      if String.eqb h "bearer teacher.jwt" then (set_user req teacher, Next)
      else (req, NextErr UnauthorizedError)
  | _ => (req, NextErr UnauthorizedError)
  end.

Definition getClassTenant (tenant : string) : Completion ClassTenant.t :=
  if String.eqb tenant "faulty" then Thrown StoreError
  else Normal (ClassTenant.mk tenant (String.eqb tenant "managed")).

Definition bobs_project : Project.t :=
  Project.mk "p1" "auth0|bob" "apple" false.

Definition shared_project : Project.t :=
  Project.mk "p2" "auth0|bob" "apple" true.

Definition getProject (projectid : string) : Completion (option Project.t) :=
  if String.eqb projectid "p1" then Normal (Some bobs_project)
  else if String.eqb projectid "p2" then Normal (Some shared_project)
  else if String.eqb projectid "faulty" then Thrown StoreError
  else Normal None.

Definition request (classid studentid projectid : string)
           (authorization : option HeaderValue) (user : option User) : Request :=
  mkRequest (mkParams classid studentid projectid) authorization user None.

End Demo.

(** ** The words of the specification *)

(** A credential header that is missing, not a string, or a string
    whose first space-separated piece is not [Bearer]. *)
Definition missing_or_malformed_bearer (h : option HeaderValue) : Prop :=
  h = None
  \/ (exists l, h = Some (HArr l))
  \/ (exists s, h = Some (HStr s) /\ nth_error (split s " "%char) 0 <> Some "Bearer").

(** A credential header that is a string whose first piece is
    [Bearer]. *)
Definition well_formed_bearer (h : option HeaderValue) (s : string) : Prop :=
  h = Some (HStr s) /\ nth_error (split s " "%char) 0 = Some "Bearer".

(** A principal is on the request but carries no structured role or
    tenant information: no [app_metadata], and neither namespaced
    claim on the raw token. *)
Definition no_structured_information (req : Request) : Prop :=
  exists u,
    user req = Some u
    /\ app_metadata u = None
    /\ claim ROLE_CLAIM (claims u) = None
    /\ claim TENANT_CLAIM (claims u) = None.

(** The tenant a principal asserts: the structured one when the
    principal carries structured fields, else the namespaced claim of
    the raw token, [undefined] when that is absent too. *)
Definition asserted_tenant (u : User) : option string :=
  match app_metadata u with
  | Some am => tenant am
  | None => claim TENANT_CLAIM (claims u)
  end.

(** * Properties *)

(** ** JavaScript helpers *)

Lemma strict_eq_true_iff (a : option string) (s : string) :
  strict_eq a (Some s) = true <-> a = Some s.
Proof.
  destruct a as [x|]; simpl.
  - rewrite String.eqb_eq. split; congruence.
  - split; discriminate.
Qed.

Lemma strict_eq_false_iff (a : option string) (s : string) :
  strict_eq a (Some s) = false <-> a <> Some s.
Proof.
  rewrite <- strict_eq_true_iff. destruct (strict_eq a (Some s)); split; congruence.
Qed.

Lemma split_nonempty (s : string) (sep : ascii) : split s sep <> [].
Proof.
  destruct s as [|c rest]; simpl; [discriminate|].
  destruct (Ascii.eqb c sep); [discriminate|].
  destruct (split rest sep); discriminate.
Qed.

Lemma bearer_is_truthy (s : string) :
  nth_error (split s " "%char) 0 = Some "Bearer" -> truthy (Some (HStr s)) = true.
Proof.
  destruct s; simpl; [discriminate | reflexivity].
Qed.

Example split_bearer_token :
  split "Bearer abc.def" " "%char = ["Bearer"; "abc.def"].
Proof. reflexivity. Qed.

Example split_bearer_alone : split "Bearer" " "%char = ["Bearer"].
Proof. reflexivity. Qed.

Example split_two_spaces : split "a  b" " "%char = ["a"; ""; "b"].
Proof. reflexivity. Qed.

Example split_empty : split "" " "%char = [""].
Proof. reflexivity. Qed.

(** ** Claims normalisation *)

Lemma getValuesFromToken_structured (req : Request) (u : User) (am : AppMetadata) :
  user req = Some u -> app_metadata u = Some am -> getValuesFromToken req = req.
Proof.
  intros Hu Ham. unfold getValuesFromToken. rewrite Hu, Ham. reflexivity.
Qed.

Lemma getValuesFromToken_no_user (req : Request) :
  user req = None -> getValuesFromToken req = req.
Proof.
  intros Hu. unfold getValuesFromToken. rewrite Hu. reflexivity.
Qed.

(** After normalisation a principal always carries structured fields. *)
Lemma getValuesFromToken_populates (req : Request) (u : User) :
  user (getValuesFromToken req) = Some u -> exists am, app_metadata u = Some am.
Proof.
  unfold getValuesFromToken.
  destruct (user req) as [v|] eqn:Hv; [|rewrite Hv; discriminate].
  destruct (app_metadata v) as [am|] eqn:Ham.
  - rewrite Hv. intros [= <-]. eauto.
  - simpl. intros [= <-]. simpl. eauto.
Qed.

Lemma getValuesFromToken_params (req : Request) :
  params (getValuesFromToken req) = params req.
Proof.
  unfold getValuesFromToken.
  destruct (user req) as [v|]; [destruct (app_metadata v)|]; reflexivity.
Qed.

(** C8: claims normalisation is idempotent: a second application
    changes nothing, on any request, so the structured role and tenant
    after two applications are those after one. *)
Theorem getValuesFromToken_idempotent (req : Request) :
  getValuesFromToken (getValuesFromToken req) = getValuesFromToken req.
Proof.
  destruct (user (getValuesFromToken req)) as [u|] eqn:Hu.
  - destruct (getValuesFromToken_populates _ _ Hu) as [am Ham].
    exact (getValuesFromToken_structured _ _ _ Hu Ham).
  - exact (getValuesFromToken_no_user _ Hu).
Qed.

Example normalise_teacher :
  getValuesFromToken (Demo.request "apple" "" "" None (Some Demo.teacher))
  = Demo.request "apple" "" "" None (Some Demo.teacher_normalized).
Proof. reflexivity. Qed.

(** ** Authorisation gate *)

(** C6 (as the code has it): [checkValidUser] leaves the request
    normalised. It answers not-authorised exactly when the request has
    no principal. With a principal the structured fields are always
    there after normalisation, so the answer is forbidden when the
    structured tenant is not the class of the path, an undefined
    tenant included, and [next()] is called exactly when it is the
    class of the path. The tenant compared is the one the principal
    asserts: its structured tenant, or the namespaced claim of the raw
    token. *)
Theorem checkValidUser_decides (req : Request) :
  let req' := getValuesFromToken req in
  fst (checkValidUser req) = req'
  /\ (snd (checkValidUser req) = Respond notAuthorised <-> user req = None)
  /\ (forall u, user req' = Some u -> exists am, app_metadata u = Some am)
  /\ (forall u am,
        user req' = Some u -> app_metadata u = Some am ->
        tenant am <> Some (classid (params req)) ->
        snd (checkValidUser req) = Respond forbidden)
  /\ (snd (checkValidUser req) = Next <->
      exists u am,
        user req' = Some u /\ app_metadata u = Some am
        /\ tenant am = Some (classid (params req)))
  /\ (forall u,
        user req = Some u ->
        (asserted_tenant u = Some (classid (params req)) ->
         snd (checkValidUser req) = Next)
        /\ (asserted_tenant u <> Some (classid (params req)) ->
            snd (checkValidUser req) = Respond forbidden)).
Proof.
  intros req'.
  split; [|split; [|split; [|split; [|split]]]].
  - unfold checkValidUser. fold req'.
    destruct (user req') as [u|]; [destruct (app_metadata u) as [am|]|];
      [destruct (negb _)| |]; reflexivity.
  - unfold checkValidUser. fold req'.
    destruct (user req') as [u|] eqn:Hu.
    + destruct (getValuesFromToken_populates req u Hu) as [am Ham]. rewrite Ham.
      assert (Hsome : user req <> None).
      { intros Hn. unfold req' in Hu.
        rewrite (getValuesFromToken_no_user req Hn) in Hu. congruence. }
      destruct (negb _); cbn [snd]; split; intros H; congruence.
    + cbn [snd]. split; [intros _|reflexivity].
      unfold req', getValuesFromToken in Hu.
      destruct (user req) as [v|] eqn:Hv; [|reflexivity].
      destruct (app_metadata v); [congruence | discriminate].
  - intros u Hu. exact (getValuesFromToken_populates req u Hu).
  - intros u am Hu Ham Hten. unfold checkValidUser. fold req'.
    rewrite Hu, Ham. unfold req'. rewrite getValuesFromToken_params.
    apply strict_eq_false_iff in Hten. rewrite Hten. reflexivity.
  - unfold checkValidUser. fold req'.
    assert (Hp : params req' = params req) by apply getValuesFromToken_params.
    rewrite Hp.
    destruct (user req') as [u|] eqn:Hu.
    + destruct (app_metadata u) as [am|] eqn:Ham.
      * destruct (strict_eq (tenant am) (Some (classid (params req)))) eqn:Ht;
          cbn [negb snd].
        -- apply strict_eq_true_iff in Ht. split; [intros _; eauto | reflexivity].
        -- apply strict_eq_false_iff in Ht. split; [discriminate|].
           intros (v & bm & [= <-] & Hbm & Hten). congruence.
      * cbn [snd]. split; [discriminate|].
        intros (v & bm & [= <-] & Hbm & _). congruence.
    + cbn [snd]. split; [discriminate|].
      intros (v & bm & H & _). discriminate.
  - intros u Hu. unfold asserted_tenant, checkValidUser, getValuesFromToken.
    rewrite Hu.
    destruct (app_metadata u) as [am|] eqn:Ham.
    + rewrite Hu, Ham.
      destruct (strict_eq (tenant am) (Some (classid (params req)))) eqn:Ht; cbn.
      * apply strict_eq_true_iff in Ht. split; [reflexivity | contradiction].
      * apply strict_eq_false_iff in Ht. split; [contradiction | reflexivity].
    + cbn.
      destruct (strict_eq (claim TENANT_CLAIM (claims u))
                  (Some (classid (params req)))) eqn:Ht; cbn.
      * apply strict_eq_true_iff in Ht. split; [reflexivity | contradiction].
      * apply strict_eq_false_iff in Ht. split; [contradiction | reflexivity].
Qed.

(** Not-authorised has one cause only, the missing principal:
    normalisation fills the structured fields of every principal. *)
Lemma checkValidUser_unauthenticated_iff (req : Request) :
  snd (checkValidUser req) = Respond notAuthorised <-> user req = None.
Proof.
  unfold checkValidUser.
  destruct (user (getValuesFromToken req)) as [u|] eqn:Hu.
  - destruct (getValuesFromToken_populates _ _ Hu) as [am Ham]. rewrite Ham.
    assert (Hsome : user req <> None).
    { intros Hn. rewrite (getValuesFromToken_no_user _ Hn) in Hu. congruence. }
    destruct (negb _); simpl; split; intros H; congruence.
  - simpl. split; [intros _|reflexivity].
    unfold getValuesFromToken in Hu.
    destruct (user req) as [v|] eqn:Hv; [|reflexivity].
    destruct (app_metadata v); [congruence | discriminate].
Qed.

(** C7: once the principal and its structured fields are present,
    [requireSupervisor] answers every role other than supervisor, the
    undefined role included, with the supervisor-only response, and
    calls [next()] exactly for the role supervisor. *)
Theorem requireSupervisor_outcomes (req : Request) (u : User) (am : AppMetadata) :
  user req = Some u ->
  app_metadata u = Some am ->
  (role am <> Some "supervisor" ->
   requireSupervisor req = (req, Respond supervisorOnly))
  /\ (role am = Some "supervisor" -> requireSupervisor req = (req, Next))
  /\ (snd (requireSupervisor req) = Next <-> role am = Some "supervisor").
Proof.
  intros Hu Ham. unfold requireSupervisor. rewrite Hu, Ham.
  case_eq (strict_eq (role am) (Some "supervisor")); intros Hrole; simpl.
  - apply strict_eq_true_iff in Hrole.
    split; [intros Hne; contradiction|]. split; [reflexivity|].
    split; intros _; [exact Hrole | reflexivity].
  - apply strict_eq_false_iff in Hrole.
    split; [reflexivity|]. split; [intros Heq; contradiction|].
    split; [discriminate | intros Heq; contradiction].
Qed.

Section Properties.

Variable CLASS_NAME : string.
Variable jwtDecode : option string -> Completion Payload.
Variable checkSessionToken : string -> string -> Completion bool.
Variable auth0Authenticate : Request -> Handled.
Variable getClassTenant : string -> Completion ClassTenant.t.
Variable getProject : string -> Completion (option Project.t).

Local Abbreviation authenticate :=
  (authenticate CLASS_NAME jwtDecode checkSessionToken auth0Authenticate).
Local Abbreviation sessionusersAuthenticate :=
  (sessionusersAuthenticate CLASS_NAME jwtDecode checkSessionToken).
Local Abbreviation ensureUnmanaged := (ensureUnmanaged getClassTenant).
Local Abbreviation verifyProjectAuth := (verifyProjectAuth getProject).
Local Abbreviation verifyProjectOwner := (verifyProjectOwner getProject).
Local Abbreviation verifyProjectAccess := (verifyProjectAccess getProject).

(** ** Authentication routing *)

Lemma guard_false_without_bearer (req : Request) :
  missing_or_malformed_bearer (headers_authorization req) ->
  String.eqb (classid (params req)) CLASS_NAME
  && truthy (headers_authorization req)
  && typeof_string (headers_authorization req)
  && strict_eq (nth_error (header_split (headers_authorization req)) 0) (Some "Bearer")
  = false.
Proof.
  intros [Hnone | [[l Harr] | [s [Hstr Hscheme]]]].
  - rewrite Hnone. simpl. now rewrite andb_false_r.
  - rewrite Harr. simpl. now rewrite andb_false_r.
  - rewrite Hstr. simpl header_split.
    apply strict_eq_false_iff in Hscheme. rewrite Hscheme.
    apply andb_false_r.
Qed.

(** C1 (as the code has it): a request for the reserved session class
    whose credential header is missing, not a string, or does not start
    with the piece [Bearer] is not handled by the session path: it is
    handed to the external verifier, whose result is the result of
    [authenticate]. *)
Theorem authenticate_without_bearer_delegates (req : Request) :
  classid (params req) = CLASS_NAME ->
  missing_or_malformed_bearer (headers_authorization req) ->
  authenticate req = auth0Authenticate req.
Proof.
  intros _ Hhdr. unfold authenticate.
  cbv zeta. now rewrite (guard_false_without_bearer req Hhdr).
Qed.

(** C4: for the reserved session class, a well-formed bearer header
    whose token decodes to a payload object and whose session
    verifies, [authenticate] calls [next()] and leaves on the request
    the principal built from the decoded payload: subject the
    payload's id, role student, tenant the reserved class, session the
    payload; the rest of the request is as it was. *)
Theorem authenticate_session_principal
        (req : Request) (h : string) (decoded : TemporaryUser.t) :
  classid (params req) = CLASS_NAME ->
  well_formed_bearer (headers_authorization req) h ->
  jwtDecode (nth_error (split h " "%char) 1) = Normal (PayloadObject decoded) ->
  checkSessionToken (studentid (params req)) (TemporaryUser.token decoded)
  = Normal true ->
  snd (authenticate req) = Next
  /\ user (fst (authenticate req))
     = Some {| sub := TemporaryUser.id decoded;
               app_metadata :=
                 Some {| role := Some "student"; tenant := Some CLASS_NAME |};
               session := Some decoded;
               claims := [] |}
  /\ params (fst (authenticate req)) = params req
  /\ headers_authorization (fst (authenticate req)) = headers_authorization req
  /\ project (fst (authenticate req)) = project req.
Proof.
  intros Hclass [Hhdr Hscheme] Hdecode Hcheck.
  unfold authenticate. cbv zeta. rewrite Hhdr.
  rewrite Hclass, String.eqb_refl, (bearer_is_truthy h Hscheme).
  cbn [header_split typeof_string andb].
  rewrite Hscheme. cbn [strict_eq]. rewrite String.eqb_refl.
  unfold sessionusersAuthenticate.
  rewrite Hdecode. cbn [read_payload bind]. rewrite Hcheck.
  cbn. rewrite Hhdr. repeat split.
Qed.

(** The failures of the session path that the code answers as the
    specification asks: a decoder that throws and a session that does
    not verify are answered with not-authorised, and an error of the
    session lookup goes to [next(err)] unchanged. *)
Lemma sessionusersAuthenticate_failures
      (jwtTokenString : option string) (req : Request) :
  (forall e, jwtDecode jwtTokenString = Thrown e ->
     sessionusersAuthenticate jwtTokenString req = (req, Respond notAuthorised))
  /\ (forall decoded,
        jwtDecode jwtTokenString = Normal (PayloadObject decoded) ->
        checkSessionToken (studentid (params req)) (TemporaryUser.token decoded)
        = Normal false ->
        sessionusersAuthenticate jwtTokenString req = (req, Respond notAuthorised))
  /\ (forall decoded err,
        jwtDecode jwtTokenString = Normal (PayloadObject decoded) ->
        checkSessionToken (studentid (params req)) (TemporaryUser.token decoded)
        = Thrown err ->
        sessionusersAuthenticate jwtTokenString req = (req, NextErr err)).
Proof.
  unfold sessionusersAuthenticate.
  split; [|split].
  - intros e ->. reflexivity.
  - intros decoded -> Hchk. cbn [read_payload bind]. rewrite Hchk. reflexivity.
  - intros decoded err -> Hchk. cbn [read_payload bind]. rewrite Hchk. reflexivity.
Qed.

(** A token the decoder accepts with the payload [null] is not
    answered with not-authorised: reading [decoded.token] throws
    inside the second [try], and the [TypeError] goes to
    [next(err)]. *)
Lemma sessionusersAuthenticate_null_payload
      (jwtTokenString : option string) (req : Request) :
  jwtDecode jwtTokenString = Normal PayloadNull ->
  sessionusersAuthenticate jwtTokenString req
  = (req, NextErr (TypeError_null "token")).
Proof.
  intros Hdec. unfold sessionusersAuthenticate. rewrite Hdec. reflexivity.
Qed.

(** ** Managed classes *)

(** C9: [ensureUnmanaged] asks the store for the class of the path;
    a managed class is answered with status 403, an unmanaged class
    calls [next()], and an error of the store goes to [next(err)],
    which is not a response. *)
Theorem ensureUnmanaged_outcomes (req : Request) :
  (forall policy,
     getClassTenant (classid (params req)) = Normal policy ->
     ClassTenant.isManaged policy = true ->
     exists r, ensureUnmanaged req = (req, Respond r)
               /\ status_of r = httpstatus.FORBIDDEN
               /\ r = status_json httpstatus.FORBIDDEN
                        "Access to API keys is forbidden for managed tenants")
  /\ (forall policy,
        getClassTenant (classid (params req)) = Normal policy ->
        ClassTenant.isManaged policy = false ->
        ensureUnmanaged req = (req, Next))
  /\ (forall err,
        getClassTenant (classid (params req)) = Thrown err ->
        ensureUnmanaged req = (req, NextErr err)
        /\ forall r, snd (ensureUnmanaged req) <> Respond r).
Proof.
  unfold ensureUnmanaged. cbv zeta.
  split; [|split].
  - intros policy -> Hm. simpl. rewrite Hm. eauto.
  - intros policy -> Hm. simpl. now rewrite Hm.
  - intros err ->. simpl. split; [reflexivity | discriminate].
Qed.

(** ** Project access *)

(** The owner test of [verifyProjectAuth], as the code computes it:
    [undefined] without a principal, else a boolean. *)
Lemma verifyProjectAuth_resolved
      (req : Request) (isCrowdSourcedAllowed : bool) (p : Project.t) :
  getProject (projectid (params req)) = Normal (Some p) ->
  Project.classid p = classid (params req) ->
  verifyProjectAuth req isCrowdSourcedAllowed
  = match user req with
    | None => (set_project req p, Next)
    | Some u =>
        if String.eqb (Project.userid p) (sub u)
           && String.eqb (Project.userid p) (studentid (params req))
        then (set_project req p, Next)
        else if isCrowdSourcedAllowed && Project.isCrowdSourced p
             then (set_project req p, Next)
             else (req, Respond forbidden)
    end.
Proof.
  intros Hget Hclass. unfold verifyProjectAuth. cbv zeta.
  rewrite Hget. cbn [bind try_catch].
  rewrite Hclass, String.eqb_refl. cbn [negb].
  destruct (user req) as [u|]; cbn [js_and strict_eq_false]; [|reflexivity].
  destruct (String.eqb (Project.userid p) (sub u)
            && String.eqb (Project.userid p) (studentid (params req)));
    [reflexivity|].
  destruct isCrowdSourcedAllowed, (Project.isCrowdSourced p); reflexivity.
Qed.

(** C3: in both project operations a project the store does not have
    is answered with not-found whatever the class, the principal and
    the owner are, and a project of another class than the class of
    the path is answered with forbidden whoever asks. *)
Theorem verifyProject_missing_or_foreign (req : Request) :
  (getProject (projectid (params req)) = Normal None ->
   verifyProjectOwner req = (req, Respond notFound)
   /\ verifyProjectAccess req = (req, Respond notFound))
  /\ (forall p,
        getProject (projectid (params req)) = Normal (Some p) ->
        Project.classid p <> classid (params req) ->
        verifyProjectOwner req = (req, Respond forbidden)
        /\ verifyProjectAccess req = (req, Respond forbidden)).
Proof.
  unfold verifyProjectOwner, verifyProjectAccess,
    verifyProjectAuth.
  cbv zeta. split.
  - intros ->. split; reflexivity.
  - intros p -> Hclass. apply String.eqb_neq in Hclass.
    cbn [bind try_catch]. rewrite Hclass. split; reflexivity.
Qed.

(** C10: without a principal on the request, an existing project of
    the class of the path is attached to the request and [next()] is
    called, by the owner-only and by the owner-or-shared operation
    alike, whoever owns the project and whether or not it is
    crowd-sourced; the rest of the request is as it was. *)
Theorem verifyProject_without_principal_passes (req : Request) (p : Project.t) :
  user req = None ->
  getProject (projectid (params req)) = Normal (Some p) ->
  Project.classid p = classid (params req) ->
  (snd (verifyProjectOwner req) = Next
   /\ project (fst (verifyProjectOwner req)) = Some p
   /\ params (fst (verifyProjectOwner req)) = params req
   /\ headers_authorization (fst (verifyProjectOwner req))
      = headers_authorization req
   /\ user (fst (verifyProjectOwner req)) = None)
  /\ (snd (verifyProjectAccess req) = Next
      /\ project (fst (verifyProjectAccess req)) = Some p
      /\ params (fst (verifyProjectAccess req)) = params req
      /\ headers_authorization (fst (verifyProjectAccess req))
         = headers_authorization req
      /\ user (fst (verifyProjectAccess req)) = None).
Proof.
  intros Hu Hget Hclass.
  unfold verifyProjectOwner, verifyProjectAccess.
  rewrite !(verifyProjectAuth_resolved req _ p Hget Hclass), Hu.
  cbn. rewrite Hu. repeat split.
Qed.

(** With a principal on the request the owner rule holds as the
    specification words it: the owner passes, and anyone else passes
    exactly when shared access is allowed and the project is
    crowd-sourced, and is answered with forbidden otherwise. *)
Lemma verifyProjectAuth_with_principal
      (req : Request) (isCrowdSourcedAllowed : bool) (p : Project.t) (u : User) :
  user req = Some u ->
  getProject (projectid (params req)) = Normal (Some p) ->
  Project.classid p = classid (params req) ->
  let isOwner := Project.userid p = sub u
                 /\ Project.userid p = studentid (params req) in
  (isOwner -> verifyProjectAuth req isCrowdSourcedAllowed = (set_project req p, Next))
  /\ (~ isOwner ->
      isCrowdSourcedAllowed = true /\ Project.isCrowdSourced p = true ->
      verifyProjectAuth req isCrowdSourcedAllowed = (set_project req p, Next))
  /\ (~ isOwner ->
      ~ (isCrowdSourcedAllowed = true /\ Project.isCrowdSourced p = true) ->
      verifyProjectAuth req isCrowdSourcedAllowed = (req, Respond forbidden)).
Proof.
  intros Hu Hget Hclass isOwner. subst isOwner.
  rewrite (verifyProjectAuth_resolved req _ p Hget Hclass), Hu.
  destruct (String.eqb_spec (Project.userid p) (sub u)) as [Hs|Hs];
    destruct (String.eqb_spec (Project.userid p) (studentid (params req))) as [Hm|Hm];
    cbn [andb];
    destruct isCrowdSourcedAllowed, (Project.isCrowdSourced p); cbn [andb];
    (split; [|split]);
    try reflexivity;
    try (intros [Ha Hb]; congruence);
    try (intros Hno [Ha Hb]; congruence);
    try (intros Hno Hsh; exfalso; apply Hsh; split; reflexivity);
    try (intros Hno; exfalso; apply Hno; split; assumption).
Qed.

End Properties.

(** ** The middleware on the concrete deployment *)

(** C2 (the code at the failing request): a request without a
    principal for a project of its class that is not crowd-sourced
    passes the owner-only operation with the project attached, where
    the owner rule asks for forbidden. *)
Example verifyProjectOwner_no_principal_not_forbidden :
  let req := Demo.request "apple" "auth0|mallory" "p1" None None in
  Demo.getProject "p1" = Normal (Some Demo.bobs_project)
  /\ Project.isCrowdSourced Demo.bobs_project = false
  /\ verifyProjectOwner Demo.getProject req = (set_project req Demo.bobs_project, Next)
  /\ verifyProjectOwner Demo.getProject req <> (req, Respond forbidden).
Proof.
  cbv zeta. repeat split. discriminate.
Qed.

(** C5 (the code at the failing request): a bearer token for the
    reserved class whose payload is [null] is accepted by the decoder,
    and the session path then hands a [TypeError] to [next(err)]
    without having asked the session store; the caller's malformed
    token is treated as a fault, where the specification asks for
    not-authorised. A token the decoder rejects is answered with
    not-authorised on the same request. *)
Example authenticate_null_payload_is_fault :
  let req := Demo.request "session-users" "alice" ""
               (Some (HStr "Bearer e30.bnVsbA.sig")) None in
  Demo.jwtDecode (Some "e30.bnVsbA.sig") = Normal PayloadNull
  /\ authenticate Demo.CLASS_NAME Demo.jwtDecode Demo.checkSessionToken
       Demo.auth0Authenticate req
     = (req, NextErr (TypeError_null "token"))
  /\ sessionusersAuthenticate Demo.CLASS_NAME Demo.jwtDecode Demo.checkSessionToken
       (Some "e30.bnVsbA.sig") req
     = (req, NextErr (TypeError_null "token"))
  /\ snd (authenticate Demo.CLASS_NAME Demo.jwtDecode Demo.checkSessionToken
            Demo.auth0Authenticate req)
     <> Respond notAuthorised
  /\ snd (sessionusersAuthenticate Demo.CLASS_NAME Demo.jwtDecode
            Demo.checkSessionToken (Some "garbage") req)
     = Respond notAuthorised.
Proof.
  cbv zeta. repeat split. discriminate.
Qed.

(** C6 (as the specification states it) fails: a principal without
    structured fields and without the namespaced claims is answered
    with forbidden, not with not-authorised. *)
Lemma checkValidUser_unclaimed_principal_forbidden :
  ~ (forall req,
       user req = None \/ no_structured_information req ->
       snd (checkValidUser req) = Respond notAuthorised).
Proof.
  intros Hclaim.
  assert (Hno : no_structured_information
                  (Demo.request "apple" "" "" None (Some Demo.unclaimed))).
  { exists Demo.unclaimed. repeat split. }
  specialize (Hclaim (Demo.request "apple" "" "" None (Some Demo.unclaimed))
                (or_intror Hno)).
  discriminate Hclaim.
Qed.

Example checkValidUser_unclaimed_principal :
  checkValidUser (Demo.request "apple" "" "" None (Some Demo.unclaimed))
  = (Demo.request "apple" "" "" None
       (Some {| sub := "auth0|nobody";
                app_metadata := Some {| role := None; tenant := None |};
                session := None;
                claims := [] |}),
     Respond forbidden).
Proof. reflexivity. Qed.

(** C1 (as the specification states it) fails: for the reserved class
    and a header whose first piece is not [Bearer], an external
    verifier that accepts the request makes [authenticate] call
    [next()] with the external principal; the answer is not
    not-authorised. *)
Lemma authenticate_reserved_class_reaches_auth0 :
  ~ (forall CLASS_NAME jwtDecode checkSessionToken auth0Authenticate req,
       classid (params req) = CLASS_NAME ->
       missing_or_malformed_bearer (headers_authorization req) ->
       snd (authenticate CLASS_NAME jwtDecode checkSessionToken auth0Authenticate req)
       = Respond notAuthorised).
Proof.
  intros Hclaim.
  specialize (Hclaim Demo.CLASS_NAME Demo.jwtDecode Demo.checkSessionToken
                Demo.auth0Authenticate
                (Demo.request "session-users" "alice" ""
                   (Some (HStr "bearer teacher.jwt")) None)
                eq_refl).
  assert (Hhdr : missing_or_malformed_bearer (Some (HStr "bearer teacher.jwt"))).
  { right. right. exists "bearer teacher.jwt". split; [reflexivity | discriminate]. }
  specialize (Hclaim Hhdr). discriminate Hclaim.
Qed.

Example authenticate_lowercase_scheme :
  authenticate Demo.CLASS_NAME Demo.jwtDecode Demo.checkSessionToken
    Demo.auth0Authenticate
    (Demo.request "session-users" "alice" "" (Some (HStr "bearer teacher.jwt")) None)
  = (Demo.request "session-users" "alice" "" (Some (HStr "bearer teacher.jwt"))
       (Some Demo.teacher),
     Next).
Proof. reflexivity. Qed.

Example authenticate_no_header :
  authenticate Demo.CLASS_NAME Demo.jwtDecode Demo.checkSessionToken
    Demo.auth0Authenticate
    (Demo.request "session-users" "alice" "" None None)
  = (Demo.request "session-users" "alice" "" None None,
     NextErr Demo.UnauthorizedError).
Proof. reflexivity. Qed.

Example authenticate_bearer_without_token :
  authenticate Demo.CLASS_NAME Demo.jwtDecode Demo.checkSessionToken
    Demo.auth0Authenticate
    (Demo.request "session-users" "alice" "" (Some (HStr "Bearer")) None)
  = (Demo.request "session-users" "alice" "" (Some (HStr "Bearer")) None,
     Respond notAuthorised).
Proof. reflexivity. Qed.

Example authenticate_other_class_ignores_session_token :
  authenticate Demo.CLASS_NAME Demo.jwtDecode Demo.checkSessionToken
    Demo.auth0Authenticate
    (Demo.request "apple" "alice" "" (Some (HStr "Bearer alice.jwt")) None)
  = (Demo.request "apple" "alice" "" (Some (HStr "Bearer alice.jwt")) None,
     NextErr Demo.UnauthorizedError).
Proof. reflexivity. Qed.

Example owner_passes :
  verifyProjectOwner Demo.getProject
    (Demo.request "apple" "auth0|bob" "p1" None (Some Demo.bob))
  = (set_project (Demo.request "apple" "auth0|bob" "p1" None (Some Demo.bob))
       Demo.bobs_project,
     Next).
Proof. reflexivity. Qed.

Example owner_on_other_member_path_forbidden :
  snd (verifyProjectAccess Demo.getProject
         (Demo.request "apple" "auth0|carol" "p1" None (Some Demo.bob)))
  = Respond forbidden.
Proof. reflexivity. Qed.

Example classmate_reads_shared_project :
  snd (verifyProjectAccess Demo.getProject
         (Demo.request "apple" "auth0|teacher" "p2" None (Some Demo.teacher_normalized)))
  = Next
  /\ snd (verifyProjectOwner Demo.getProject
            (Demo.request "apple" "auth0|teacher" "p2" None
               (Some Demo.teacher_normalized)))
     = Respond forbidden.
Proof. split; reflexivity. Qed.

Example project_store_fault :
  snd (verifyProjectAccess Demo.getProject
         (Demo.request "apple" "auth0|bob" "faulty" None (Some Demo.bob)))
  = NextErr Demo.StoreError.
Proof. reflexivity. Qed.

Example requireSupervisor_without_principal_throws :
  snd (requireSupervisor (Demo.request "apple" "" "" None None))
  = Throw (TypeError_undefined "app_metadata").
Proof. reflexivity. Qed.

(** ** Instances of the theorems *)

Lemma authenticate_without_bearer_delegates_witness :
  let req := Demo.request "session-users" "alice" ""
               (Some (HArr ["Bearer alice.jwt"])) None in
  classid (params req) = Demo.CLASS_NAME
  /\ missing_or_malformed_bearer (headers_authorization req)
  /\ authenticate Demo.CLASS_NAME Demo.jwtDecode Demo.checkSessionToken
       Demo.auth0Authenticate req
     = Demo.auth0Authenticate req.
Proof.
  cbv zeta.
  assert (Hhdr : missing_or_malformed_bearer (Some (HArr ["Bearer alice.jwt"]))).
  { right. left. exists ["Bearer alice.jwt"]. reflexivity. }
  split; [reflexivity | split; [exact Hhdr|]].
  apply (authenticate_without_bearer_delegates Demo.CLASS_NAME Demo.jwtDecode
           Demo.checkSessionToken Demo.auth0Authenticate);
    [reflexivity | exact Hhdr].
Defined.

Lemma authenticate_session_principal_witness :
  let req := Demo.request "session-users" "alice" ""
               (Some (HStr "Bearer alice.jwt")) None in
  user (fst (authenticate Demo.CLASS_NAME Demo.jwtDecode Demo.checkSessionToken
               Demo.auth0Authenticate req))
  = Some {| sub := "alice";
            app_metadata :=
              Some {| role := Some "student"; tenant := Some "session-users" |};
            session := Some Demo.alice_session;
            claims := [] |}.
Proof.
  cbv zeta.
  apply (authenticate_session_principal Demo.CLASS_NAME Demo.jwtDecode
           Demo.checkSessionToken Demo.auth0Authenticate
           (Demo.request "session-users" "alice" ""
              (Some (HStr "Bearer alice.jwt")) None)
           "Bearer alice.jwt" Demo.alice_session).
  - reflexivity.
  - split; reflexivity.
  - reflexivity.
  - reflexivity.
Defined.

Lemma sessionusersAuthenticate_failures_witness :
  snd (sessionusersAuthenticate Demo.CLASS_NAME Demo.jwtDecode Demo.checkSessionToken
         (Some "garbage") (Demo.request "session-users" "alice" "" None None))
  = Respond notAuthorised
  /\ snd (sessionusersAuthenticate Demo.CLASS_NAME Demo.jwtDecode
            Demo.checkSessionToken
            (Some "alice.jwt") (Demo.request "session-users" "mallory" "" None None))
     = Respond notAuthorised
  /\ snd (sessionusersAuthenticate Demo.CLASS_NAME Demo.jwtDecode
            Demo.checkSessionToken
            (Some "alice.jwt") (Demo.request "session-users" "faulty" "" None None))
     = NextErr Demo.StoreError.
Proof.
  split; [|split].
  - rewrite (proj1 (sessionusersAuthenticate_failures Demo.CLASS_NAME Demo.jwtDecode
                      Demo.checkSessionToken (Some "garbage")
                      (Demo.request "session-users" "alice" "" None None))
               Demo.InvalidTokenError eq_refl).
    reflexivity.
  - rewrite (proj1 (proj2 (sessionusersAuthenticate_failures Demo.CLASS_NAME
                             Demo.jwtDecode Demo.checkSessionToken (Some "alice.jwt")
                             (Demo.request "session-users" "mallory" "" None None)))
               Demo.alice_session eq_refl eq_refl).
    reflexivity.
  - rewrite (proj2 (proj2 (sessionusersAuthenticate_failures Demo.CLASS_NAME
                             Demo.jwtDecode Demo.checkSessionToken (Some "alice.jwt")
                             (Demo.request "session-users" "faulty" "" None None)))
               Demo.alice_session Demo.StoreError eq_refl eq_refl).
    reflexivity.
Defined.

Lemma checkValidUser_decides_witness :
  snd (checkValidUser (Demo.request "apple" "" "" None None))
  = Respond notAuthorised
  /\ snd (checkValidUser (Demo.request "banana" "" "" None (Some Demo.teacher)))
     = Respond forbidden
  /\ snd (checkValidUser (Demo.request "apple" "" "" None (Some Demo.unclaimed)))
     = Respond forbidden
  /\ snd (checkValidUser (Demo.request "apple" "" "" None (Some Demo.teacher)))
     = Next.
Proof.
  split; [|split; [|split]].
  - apply (proj2 (proj1 (proj2 (checkValidUser_decides
                                  (Demo.request "apple" "" "" None None))))).
    reflexivity.
  - apply (proj1 (proj2 (proj2 (proj2
             (checkValidUser_decides
                (Demo.request "banana" "" "" None (Some Demo.teacher))))))
             Demo.teacher_normalized
             {| role := Some "supervisor"; tenant := Some "apple" |}).
    + reflexivity.
    + reflexivity.
    + simpl. discriminate.
  - apply (proj2 (proj2 (proj2 (proj2 (proj2
             (checkValidUser_decides
                (Demo.request "apple" "" "" None (Some Demo.unclaimed)))))))
             Demo.unclaimed eq_refl).
    simpl. discriminate.
  - apply (proj2 (proj1 (proj2 (proj2 (proj2 (proj2
             (checkValidUser_decides
                (Demo.request "apple" "" "" None (Some Demo.teacher))))))))).
    exists Demo.teacher_normalized,
      {| role := Some "supervisor"; tenant := Some "apple" |}.
    repeat split.
Defined.

Lemma requireSupervisor_outcomes_witness :
  requireSupervisor (Demo.request "apple" "" "" None (Some Demo.bob))
  = (Demo.request "apple" "" "" None (Some Demo.bob), Respond supervisorOnly)
  /\ requireSupervisor (Demo.request "apple" "" "" None (Some Demo.teacher_normalized))
     = (Demo.request "apple" "" "" None (Some Demo.teacher_normalized), Next).
Proof.
  split.
  - apply (proj1 (requireSupervisor_outcomes
                    (Demo.request "apple" "" "" None (Some Demo.bob)) Demo.bob
                    {| role := Some "student"; tenant := Some "apple" |}
                    eq_refl eq_refl)).
    simpl. discriminate.
  - apply (proj1 (proj2 (requireSupervisor_outcomes
                    (Demo.request "apple" "" "" None (Some Demo.teacher_normalized))
                    Demo.teacher_normalized
                    {| role := Some "supervisor"; tenant := Some "apple" |}
                    eq_refl eq_refl))).
    reflexivity.
Defined.

Lemma ensureUnmanaged_outcomes_witness :
  snd (ensureUnmanaged Demo.getClassTenant (Demo.request "managed" "" "" None None))
  = Respond (status_json 403 "Access to API keys is forbidden for managed tenants")
  /\ snd (ensureUnmanaged Demo.getClassTenant (Demo.request "apple" "" "" None None))
     = Next
  /\ snd (ensureUnmanaged Demo.getClassTenant (Demo.request "faulty" "" "" None None))
     = NextErr Demo.StoreError.
Proof.
  split; [|split].
  - destruct (proj1 (ensureUnmanaged_outcomes Demo.getClassTenant
                       (Demo.request "managed" "" "" None None))
                (ClassTenant.mk "managed" true) eq_refl eq_refl)
      as (r & Hrun & _ & Hr).
    rewrite Hrun, Hr. reflexivity.
  - rewrite (proj1 (proj2 (ensureUnmanaged_outcomes Demo.getClassTenant
                             (Demo.request "apple" "" "" None None)))
               (ClassTenant.mk "apple" false) eq_refl eq_refl).
    reflexivity.
  - rewrite (proj1 (proj2 (proj2 (ensureUnmanaged_outcomes Demo.getClassTenant
                             (Demo.request "faulty" "" "" None None)))
                      Demo.StoreError eq_refl)).
    reflexivity.
Defined.

Lemma verifyProject_missing_or_foreign_witness :
  verifyProjectOwner Demo.getProject
    (Demo.request "apple" "auth0|bob" "nowhere" None (Some Demo.bob))
  = (Demo.request "apple" "auth0|bob" "nowhere" None (Some Demo.bob),
     Respond notFound)
  /\ verifyProjectAccess Demo.getProject
       (Demo.request "banana" "auth0|bob" "p2" None (Some Demo.bob))
     = (Demo.request "banana" "auth0|bob" "p2" None (Some Demo.bob),
        Respond forbidden).
Proof.
  split.
  - apply (proj1 (verifyProject_missing_or_foreign Demo.getProject
                    (Demo.request "apple" "auth0|bob" "nowhere" None (Some Demo.bob)))
             eq_refl).
  - apply (proj2 (verifyProject_missing_or_foreign Demo.getProject
                    (Demo.request "banana" "auth0|bob" "p2" None (Some Demo.bob)))
             Demo.shared_project eq_refl).
    simpl. discriminate.
Defined.

Lemma verifyProject_without_principal_passes_witness :
  let req := Demo.request "apple" "auth0|mallory" "p1" None None in
  project (fst (verifyProjectOwner Demo.getProject req)) = Some Demo.bobs_project
  /\ snd (verifyProjectOwner Demo.getProject req) = Next
  /\ project (fst (verifyProjectAccess Demo.getProject req)) = Some Demo.bobs_project
  /\ snd (verifyProjectAccess Demo.getProject req) = Next.
Proof.
  cbv zeta.
  destruct (verifyProject_without_principal_passes Demo.getProject
              (Demo.request "apple" "auth0|mallory" "p1" None None)
              Demo.bobs_project eq_refl eq_refl eq_refl)
    as ((Hnext & Hproject & _) & (Hnext' & Hproject' & _)).
  split; [exact Hproject | split; [exact Hnext | split; [exact Hproject' | exact Hnext']]].
Defined.

(** * Further properties of the middleware *)

(** ** The credential header *)

Lemma split_decompose (s : string) (sep : ascii) (p : string) (ps : list string) :
  split s sep = p :: ps ->
  (ps = [] /\ s = p)
  \/ (exists rest, s = p ++ String sep rest /\ ps = split rest sep).
Proof.
  revert p ps. induction s as [|c rest IH]; intros p ps; simpl.
  - intros [= <- <-]. left. split; reflexivity.
  - destruct (Ascii.eqb_spec c sep) as [-> | Hc].
    + intros [= <- <-]. right. exists rest. split; reflexivity.
    + destruct (split rest sep) as [|q qs] eqn:Hrest.
      * exfalso. exact (split_nonempty rest sep Hrest).
      * intros [= <- <-].
        destruct (IH q qs eq_refl) as [[-> ->] | (tl & -> & ->)].
        -- left. split; reflexivity.
        -- right. exists tl. split; reflexivity.
Qed.

(** Joining the pieces with the separator gives the string back. *)
Theorem split_join (s : string) (sep : ascii) :
  String.concat (String sep EmptyString) (split s sep) = s.
Proof.
  induction s as [|c rest IH]; simpl; [reflexivity|].
  destruct (Ascii.eqb_spec c sep) as [-> | Hc].
  - destruct (split rest sep) as [|q qs] eqn:Hrest.
    + exfalso. exact (split_nonempty rest sep Hrest).
    + change (String.concat (String sep "") ("" :: q :: qs))
        with (String sep (String.concat (String sep "") (q :: qs))).
      now rewrite IH.
  - destruct (split rest sep) as [|q qs] eqn:Hrest.
    + exfalso. exact (split_nonempty rest sep Hrest).
    + destruct qs as [|q' qs'].
      * simpl in IH. simpl. now rewrite IH.
      * change (String.concat (String sep "") (String c q :: q' :: qs'))
          with (String c (String.concat (String sep "") (q :: q' :: qs'))).
        now rewrite IH.
Qed.

(** X1: The header test of [authenticate] accepts exactly the header
    [Bearer] and the headers that start with [Bearer] and one space,
    in this spelling. *)
Theorem bearer_scheme_iff_prefix (h : string) :
  strict_eq (nth_error (split h " "%char) 0) (Some "Bearer") = true
  <-> h = "Bearer" \/ exists rest, h = "Bearer " ++ rest.
Proof.
  rewrite strict_eq_true_iff. split.
  - destruct (split h " "%char) as [|p ps] eqn:Hsplit; [discriminate|].
    simpl. intros [= ->].
    destruct (split_decompose h " "%char "Bearer" ps Hsplit)
      as [[_ ->] | (rest & -> & _)].
    + left. reflexivity.
    + right. exists rest. reflexivity.
  - intros [-> | [rest ->]]; [reflexivity|].
    simpl. destruct (split rest " "%char) eqn:Hrest; reflexivity.
Qed.

(** X2: The token handed to the session path is the piece between the
    first and the second space; what follows a second space is
    dropped, and the header [Bearer] alone gives [undefined]. *)
Theorem bearer_token_piece (rest : string) :
  nth_error (split "Bearer" " "%char) 1 = None
  /\ nth_error (split ("Bearer " ++ rest) " "%char) 1
     = nth_error (split rest " "%char) 0
  /\ forall tok more,
       nth_error (split tok " "%char) 1 = None ->
       nth_error (split ("Bearer " ++ tok ++ String " "%char more) " "%char) 1
       = Some tok.
Proof.
  split; [reflexivity|]. split; [reflexivity|].
  intros tok more Htok.
  change (nth_error (split (tok ++ String " "%char more) " "%char) 0 = Some tok).
  revert Htok. induction tok as [|c tl IH]; simpl; [reflexivity|].
  destruct (Ascii.eqb_spec c " "%char) as [-> | Hc].
  - simpl. destruct (split tl " "%char) eqn:Htl; [|discriminate].
    exfalso. exact (split_nonempty tl " "%char Htl).
  - destruct (split tl " "%char) as [|q qs] eqn:Htl.
    + exfalso. exact (split_nonempty tl " "%char Htl).
    + simpl. intros Hqs.
      assert (IH' := IH Hqs).
      destruct (split (tl ++ String " "%char more) " "%char) as [|q' qs'];
        simpl in IH'; [discriminate|].
      injection IH' as ->. reflexivity.
Qed.

Section Routing.

Variable CLASS_NAME : string.
Variable jwtDecode : option string -> Completion Payload.
Variable checkSessionToken : string -> string -> Completion bool.
Variable auth0Authenticate : Request -> Handled.

Local Abbreviation authenticate :=
  (authenticate CLASS_NAME jwtDecode checkSessionToken auth0Authenticate).
Local Abbreviation sessionusersAuthenticate :=
  (sessionusersAuthenticate CLASS_NAME jwtDecode checkSessionToken).

(** ** Which verifier handles a request *)

(** X3: A request for any class but the reserved one goes to the external
    verifier, whatever its header; a session token is of no use
    there. *)
Theorem authenticate_other_class_delegates (req : Request) :
  classid (params req) <> CLASS_NAME ->
  authenticate req = auth0Authenticate req.
Proof.
  intros Hclass. apply String.eqb_neq in Hclass.
  unfold authenticate. cbv zeta. rewrite Hclass. reflexivity.
Qed.

(** X4: A request for the reserved class with a bearer header is handled
    by the session path alone, with the second piece of the header as
    the token: the external verifier has no part in the result. *)
Theorem authenticate_bearer_takes_session_path (req : Request) (h : string) :
  classid (params req) = CLASS_NAME ->
  well_formed_bearer (headers_authorization req) h ->
  authenticate req
  = sessionusersAuthenticate (nth_error (split h " "%char) 1) req.
Proof.
  intros Hclass [Hhdr Hscheme].
  unfold authenticate. cbv zeta. rewrite Hhdr.
  rewrite Hclass, String.eqb_refl, (bearer_is_truthy h Hscheme).
  cbn [header_split typeof_string andb].
  rewrite Hscheme. cbn [strict_eq]. rewrite String.eqb_refl.
  reflexivity.
Qed.

(** ** What the session path can do *)

Lemma sessionusersAuthenticate_next_inv
      (jwtTokenString : option string) (req req' : Request) :
  sessionusersAuthenticate jwtTokenString req = (req', Next) ->
  exists decoded,
    jwtDecode jwtTokenString = Normal (PayloadObject decoded)
    /\ checkSessionToken (studentid (params req)) (TemporaryUser.token decoded)
       = Normal true
    /\ req' = set_user req
                {| sub := TemporaryUser.id decoded;
                   app_metadata :=
                     Some {| role := Some "student"; tenant := Some CLASS_NAME |};
                   session := Some decoded;
                   claims := [] |}.
Proof.
  unfold sessionusersAuthenticate.
  destruct (jwtDecode jwtTokenString) as [[|decoded]|e]; try discriminate.
  cbn [read_payload bind].
  destruct (checkSessionToken (studentid (params req))
              (TemporaryUser.token decoded)) as [[|]|err] eqn:Hchk;
    cbn [bind try_catch]; try discriminate.
  intros [= <-]. exists decoded.
  split; [reflexivity | split; [exact Hchk | reflexivity]].
Qed.

(** X5: The session path never throws; it calls [next()] only after the
    token decoded to a payload object and the session verified, and
    then the request carries the student principal of the reserved
    class built from that payload, the rest of the request being as it
    was; in every other case the request is left as it was, and the
    only response it writes is not-authorised. *)
Theorem sessionusersAuthenticate_sound
        (jwtTokenString : option string) (req : Request) :
  let run := sessionusersAuthenticate jwtTokenString req in
  (snd run = Next ->
   exists decoded,
     jwtDecode jwtTokenString = Normal (PayloadObject decoded)
     /\ checkSessionToken (studentid (params req)) (TemporaryUser.token decoded)
        = Normal true
     /\ user (fst run)
        = Some {| sub := TemporaryUser.id decoded;
                  app_metadata :=
                    Some {| role := Some "student"; tenant := Some CLASS_NAME |};
                  session := Some decoded;
                  claims := [] |}
     /\ params (fst run) = params req
     /\ headers_authorization (fst run) = headers_authorization req
     /\ project (fst run) = project req)
  /\ (snd run <> Next -> fst run = req)
  /\ (forall r, snd run = Respond r -> r = notAuthorised)
  /\ (forall e, snd run <> Throw e).
Proof.
  unfold sessionusersAuthenticate. cbv zeta.
  destruct (jwtDecode jwtTokenString) as [[|decoded]|e] eqn:Hdec.
  - cbn [read_payload bind try_catch fst snd].
    split; [discriminate|]. split; [reflexivity|].
    split; [intros r|intros e]; discriminate.
  - cbn [read_payload bind].
    destruct (checkSessionToken (studentid (params req))
                (TemporaryUser.token decoded)) as [[|]|err] eqn:Hchk;
      cbn [bind try_catch fst snd].
    + split; [intros _; exists decoded;
              split; [reflexivity | split; [exact Hchk | repeat split]]|].
      split; [intros Hne; exfalso; apply Hne; reflexivity|].
      split; [intros r|intros e]; discriminate.
    + split; [discriminate|]. split; [reflexivity|].
      split; [intros r [= <-]; reflexivity | intros e; discriminate].
    + split; [discriminate|]. split; [reflexivity|].
      split; [intros r|intros e]; discriminate.
  - cbn [fst snd].
    split; [discriminate|]. split; [reflexivity|].
    split; [intros r [= <-]; reflexivity | intros e'; discriminate].
Qed.

(** X6: A principal of the session path passes the class check exactly
    when the request is for the reserved class, and the check leaves
    the request as it is. *)
Theorem session_principal_checkValidUser
        (jwtTokenString : option string) (req req' : Request) :
  sessionusersAuthenticate jwtTokenString req = (req', Next) ->
  (classid (params req) = CLASS_NAME -> checkValidUser req' = (req', Next))
  /\ (classid (params req) <> CLASS_NAME ->
      checkValidUser req' = (req', Respond forbidden)).
Proof.
  intros Hrun.
  destruct (sessionusersAuthenticate_next_inv jwtTokenString req req' Hrun)
    as (decoded & _ & _ & ->).
  unfold checkValidUser, getValuesFromToken. cbn.
  split; intros Hclass.
  - rewrite Hclass, String.eqb_refl. reflexivity.
  - apply not_eq_sym in Hclass. apply String.eqb_neq in Hclass.
    rewrite Hclass. reflexivity.
Qed.

(** X7: A principal of the session path is a student: the supervisor gate
    and the site-admin gate both answer it with status 403. *)
Theorem session_principal_role_gates
        (jwtTokenString : option string) (req req' : Request) :
  sessionusersAuthenticate jwtTokenString req = (req', Next) ->
  requireSupervisor req' = (req', Respond supervisorOnly)
  /\ requireSiteAdmin req'
     = (req', Respond (status_json httpstatus.FORBIDDEN "Forbidden")).
Proof.
  intros Hrun.
  destruct (sessionusersAuthenticate_next_inv jwtTokenString req req' Hrun)
    as (decoded & _ & _ & ->).
  split; reflexivity.
Qed.

End Routing.

(** ** Normalisation and the role gates *)

(** X8: Normalisation touches nothing but the structured fields: the path
    parameters, the header, the attached project, and the subject,
    session and raw claims of the principal stay as they were, and a
    principal is neither added nor removed. *)
Theorem getValuesFromToken_preserves (req : Request) :
  params (getValuesFromToken req) = params req
  /\ headers_authorization (getValuesFromToken req) = headers_authorization req
  /\ project (getValuesFromToken req) = project req
  /\ option_map sub (user (getValuesFromToken req)) = option_map sub (user req)
  /\ option_map session (user (getValuesFromToken req)) = option_map session (user req)
  /\ option_map claims (user (getValuesFromToken req)) = option_map claims (user req).
Proof.
  unfold getValuesFromToken.
  destruct (user req) as [u|] eqn:Hu.
  - destruct (app_metadata u) eqn:Ham; cbn; rewrite ?Hu; repeat split.
  - rewrite Hu. repeat split.
Qed.

(** X9: For a principal on the request, the class check reads the tenant
    from the structured fields when the principal has them, and from
    the namespaced claim of the raw token when it has not; a token
    with neither is answered with forbidden, not with
    not-authorised. *)
Theorem checkValidUser_tenant_source (req : Request) (u : User) :
  user req = Some u ->
  let asserted :=
    match app_metadata u with
    | Some am => tenant am
    | None => claim TENANT_CLAIM (claims u)
    end in
  (asserted = Some (classid (params req)) -> snd (checkValidUser req) = Next)
  /\ (asserted <> Some (classid (params req)) ->
      snd (checkValidUser req) = Respond forbidden).
Proof.
  intros Hu asserted. subst asserted.
  unfold checkValidUser, getValuesFromToken. rewrite Hu.
  destruct (app_metadata u) as [am|] eqn:Ham.
  - rewrite Hu, Ham.
    destruct (strict_eq (tenant am) (Some (classid (params req)))) eqn:Ht; cbn.
    + apply strict_eq_true_iff in Ht. split; [reflexivity | contradiction].
    + apply strict_eq_false_iff in Ht. split; [contradiction | reflexivity].
  - cbn.
    destruct (strict_eq (claim TENANT_CLAIM (claims u))
                (Some (classid (params req)))) eqn:Ht; cbn.
    + apply strict_eq_true_iff in Ht. split; [reflexivity | contradiction].
    + apply strict_eq_false_iff in Ht. split; [contradiction | reflexivity].
Qed.

Lemma checkValidUser_next_inv (req : Request) :
  snd (checkValidUser req) = Next ->
  fst (checkValidUser req) = getValuesFromToken req
  /\ exists u am,
       user (getValuesFromToken req) = Some u
       /\ app_metadata u = Some am
       /\ tenant am = Some (classid (params req)).
Proof.
  unfold checkValidUser. rewrite getValuesFromToken_params.
  destruct (user (getValuesFromToken req)) as [u|]; [|discriminate].
  destruct (app_metadata u) as [am|] eqn:Ham; [|discriminate].
  destruct (strict_eq (tenant am) (Some (classid (params req)))) eqn:Ht;
    cbn [negb fst snd]; [|discriminate].
  intros _. split; [reflexivity|].
  exists u, am. apply strict_eq_true_iff in Ht. repeat split; assumption.
Qed.

(** X10: [requireSupervisor] does not normalise: it throws exactly when the
    request has no principal or the principal has no structured
    fields yet, whatever the raw claims say. *)
Theorem requireSupervisor_throws_iff (req : Request) :
  (exists e, snd (requireSupervisor req) = Throw e)
  <-> user req = None \/ exists u, user req = Some u /\ app_metadata u = None.
Proof.
  unfold requireSupervisor.
  destruct (user req) as [u|] eqn:Hu.
  - destruct (app_metadata u) as [am|] eqn:Ham.
    + split.
      * intros [e He]. destruct (negb _); discriminate.
      * intros [H | (v & [= <-] & H)]; congruence.
    + split; [intros _; right; eauto | intros _; cbn; eauto].
  - split; [intros _; left; reflexivity | intros _; cbn; eauto].
Qed.

(** X11: Once the class check has called [next()], the supervisor gate on
    the request it leaves cannot throw: it calls [next()] or answers
    supervisor-only, and leaves the request alone. *)
Theorem checkValidUser_then_requireSupervisor (req : Request) :
  snd (checkValidUser req) = Next ->
  let req' := fst (checkValidUser req) in
  fst (requireSupervisor req') = req'
  /\ (snd (requireSupervisor req') = Next
      \/ snd (requireSupervisor req') = Respond supervisorOnly).
Proof.
  intros Hnext req'.
  destruct (checkValidUser_next_inv req Hnext) as (Hfst & u & am & Hu & Ham & _).
  subst req'. rewrite Hfst. unfold requireSupervisor. rewrite Hu, Ham.
  destruct (negb _); cbn; split; auto.
Qed.

(** X12: [requireSiteAdmin] normalises by itself, so it works on a raw
    token: with a principal on the request it calls [next()] exactly
    when the role, structured or from the namespaced claim, is
    siteadmin, and answers status 403 otherwise; in both cases it
    leaves the request normalised. Without a principal it throws. *)
Theorem requireSiteAdmin_outcomes (req : Request) :
  (forall u,
     user req = Some u ->
     let asserted :=
       match app_metadata u with
       | Some am => role am
       | None => claim ROLE_CLAIM (claims u)
       end in
     (asserted = Some "siteadmin" ->
      requireSiteAdmin req = (getValuesFromToken req, Next))
     /\ (asserted <> Some "siteadmin" ->
         requireSiteAdmin req
         = (getValuesFromToken req,
            Respond (status_json httpstatus.FORBIDDEN "Forbidden"))))
  /\ (user req = None ->
      requireSiteAdmin req = (req, Throw (TypeError_undefined "app_metadata"))).
Proof.
  unfold requireSiteAdmin, getValuesFromToken. split.
  - intros u Hu. cbv zeta. rewrite Hu.
    destruct (app_metadata u) as [am|] eqn:Ham.
    + rewrite Hu, Ham.
      destruct (strict_eq (role am) (Some "siteadmin")) eqn:Hr; cbn [negb].
      * apply strict_eq_true_iff in Hr. split; [reflexivity | contradiction].
      * apply strict_eq_false_iff in Hr. split; [contradiction | reflexivity].
    + cbn [user set_user app_metadata role].
      destruct (strict_eq (claim ROLE_CLAIM (claims u)) (Some "siteadmin")) eqn:Hr;
        cbn [negb].
      * apply strict_eq_true_iff in Hr. split; [reflexivity | contradiction].
      * apply strict_eq_false_iff in Hr. split; [contradiction | reflexivity].
  - intros Hu. rewrite Hu, Hu. reflexivity.
Qed.

Section Resources.

Variable getClassTenant : string -> Completion ClassTenant.t.
Variable getProject : string -> Completion (option Project.t).

Local Abbreviation ensureUnmanaged := (ensureUnmanaged getClassTenant).
Local Abbreviation verifyProjectAuth := (verifyProjectAuth getProject).
Local Abbreviation verifyProjectOwner := (verifyProjectOwner getProject).
Local Abbreviation verifyProjectAccess := (verifyProjectAccess getProject).

(** ** What the project check attaches and answers *)

Lemma verifyProjectAuth_next_inv (req : Request) (isCrowdSourcedAllowed : bool) :
  snd (verifyProjectAuth req isCrowdSourcedAllowed) = Next ->
  exists p,
    getProject (projectid (params req)) = Normal (Some p)
    /\ Project.classid p = classid (params req)
    /\ fst (verifyProjectAuth req isCrowdSourcedAllowed) = set_project req p.
Proof.
  unfold verifyProjectAuth. cbv zeta.
  destruct (getProject (projectid (params req))) as [[p|]|err];
    cbn [bind try_catch]; try discriminate.
  destruct (String.eqb_spec (Project.classid p) (classid (params req)))
    as [Hclass|Hclass]; cbn [negb]; [|discriminate].
  destruct (strict_eq_false _);
    [destruct (negb isCrowdSourcedAllowed || negb (Project.isCrowdSourced p))|];
    cbn [fst snd]; try discriminate;
    intros _; exists p; repeat split; assumption.
Qed.

(** X13: The project check calls [next()] only with the project
    field of the request set to a project that the store returned for
    the project of the path and that belongs to the class of the path,
    the rest of the request being as it was; in every other case it
    leaves the request as it was. *)
Theorem verifyProjectAuth_attaches_class_project
        (req : Request) (isCrowdSourcedAllowed : bool) :
  let run := verifyProjectAuth req isCrowdSourcedAllowed in
  (snd run = Next ->
   exists p,
     getProject (projectid (params req)) = Normal (Some p)
     /\ Project.classid p = classid (params req)
     /\ project (fst run) = Some p
     /\ params (fst run) = params req
     /\ headers_authorization (fst run) = headers_authorization req
     /\ user (fst run) = user req)
  /\ (snd run <> Next -> fst run = req).
Proof.
  unfold verifyProjectAuth. cbv zeta.
  destruct (getProject (projectid (params req))) as [[p|]|err];
    cbn [bind try_catch]; [| split; [discriminate | reflexivity] ..].
  destruct (String.eqb_spec (Project.classid p) (classid (params req)))
    as [Hclass|Hclass]; cbn [negb]; [| split; [discriminate | reflexivity]].
  destruct (strict_eq_false _);
    [destruct (negb isCrowdSourcedAllowed || negb (Project.isCrowdSourced p))|];
    cbn [fst snd];
    (split; [first [discriminate
                   | intros _; exists p;
                     split; [reflexivity | split; [exact Hclass | repeat split]]]
            | first [reflexivity | intros Hne; exfalso; apply Hne; reflexivity]]).
Qed.

(** X14: The project check never throws; the only responses it writes are
    not-found and forbidden; and it calls [next(err)] exactly when the
    store fails, with the error of the store. *)
Theorem verifyProjectAuth_outcome_kinds
        (req : Request) (isCrowdSourcedAllowed : bool) :
  let run := verifyProjectAuth req isCrowdSourcedAllowed in
  (forall e, snd run <> Throw e)
  /\ (forall r, snd run = Respond r -> r = notFound \/ r = forbidden)
  /\ (forall err,
        snd run = NextErr err
        <-> getProject (projectid (params req)) = Thrown err).
Proof.
  unfold verifyProjectAuth. cbv zeta.
  destruct (getProject (projectid (params req))) as [[p|]|err];
    cbn [bind try_catch].
  - destruct (negb (String.eqb (Project.classid p) (classid (params req)))).
    + cbn [snd]. split; [intros e; discriminate|].
      split; [intros r [= <-]; right; reflexivity|].
      intros err. split; discriminate.
    + destruct (strict_eq_false _);
        [destruct (negb isCrowdSourcedAllowed || negb (Project.isCrowdSourced p))|];
        cbn [snd];
        (split; [intros e; discriminate|]);
        (split; [intros r Hr; first [discriminate Hr
                                     | injection Hr as <-; right; reflexivity]|]);
        intros err; split; discriminate.
  - cbn [snd]. split; [intros e; discriminate|].
    split; [intros r [= <-]; left; reflexivity|].
    intros err. split; discriminate.
  - cbn [snd]. split; [intros e; discriminate|].
    split; [intros r; discriminate|].
    intros err'. split; intros [= ->]; reflexivity.
Qed.

(** X15: With a principal on the request, the project check calls [next()]
    exactly when the project exists, belongs to the class of the path,
    and either is owned by the principal who is also the member of the
    path, or shared access is allowed and the project is
    crowd-sourced. *)
Theorem verifyProjectAuth_passes_iff
        (req : Request) (isCrowdSourcedAllowed : bool) (u : User) :
  user req = Some u ->
  (snd (verifyProjectAuth req isCrowdSourcedAllowed) = Next
   <-> exists p,
         getProject (projectid (params req)) = Normal (Some p)
         /\ Project.classid p = classid (params req)
         /\ ((Project.userid p = sub u
              /\ Project.userid p = studentid (params req))
             \/ (isCrowdSourcedAllowed = true
                 /\ Project.isCrowdSourced p = true))).
Proof.
  intros Hu. split.
  - intros Hnext.
    destruct (verifyProjectAuth_next_inv req isCrowdSourcedAllowed Hnext)
      as (p & Hget & Hclass & _).
    exists p. split; [exact Hget|]. split; [exact Hclass|].
    rewrite (verifyProjectAuth_resolved getProject req _ p Hget Hclass), Hu in Hnext.
    destruct (String.eqb_spec (Project.userid p) (sub u)) as [Hs|Hs];
      destruct (String.eqb_spec (Project.userid p) (studentid (params req)))
        as [Hm|Hm];
      cbn [andb] in Hnext; try (left; split; assumption);
      destruct isCrowdSourcedAllowed, (Project.isCrowdSourced p);
      cbn [andb snd] in Hnext; try discriminate Hnext;
      right; split; reflexivity.
  - intros (p & Hget & Hclass & Hwho).
    rewrite (verifyProjectAuth_resolved getProject req _ p Hget Hclass), Hu.
    destruct Hwho as [[Hs Hm] | [-> ->]].
    + rewrite <- Hs, <- Hm, String.eqb_refl. reflexivity.
    + destruct (_ && _); reflexivity.
Qed.


(** X17: Behind the class check the owner-only operation lets a request
    through only for the owner: the principal is present, belongs to
    the class of the path, owns the project, and is the member of the
    path; and the project is of that class. *)
Theorem checkValidUser_then_verifyProjectOwner (req : Request) :
  snd (checkValidUser req) = Next ->
  let req' := fst (checkValidUser req) in
  snd (verifyProjectOwner req') = Next ->
  exists u am p,
    user req' = Some u
    /\ app_metadata u = Some am
    /\ tenant am = Some (classid (params req))
    /\ getProject (projectid (params req)) = Normal (Some p)
    /\ Project.classid p = classid (params req)
    /\ Project.userid p = sub u
    /\ Project.userid p = studentid (params req).
Proof.
  intros Hvalid req' Hpass.
  destruct (checkValidUser_next_inv req Hvalid) as (Hfst & u & am & Hu & Ham & Hten).
  assert (Hreq' : req' = getValuesFromToken req) by exact Hfst.
  rewrite Hreq' in Hpass. unfold verifyProjectOwner in Hpass.
  destruct (verifyProjectAuth_next_inv (getValuesFromToken req) false Hpass)
    as (p & Hget & Hclass & _).
  rewrite (verifyProjectAuth_resolved getProject _ false p Hget Hclass), Hu in Hpass.
  rewrite getValuesFromToken_params in Hget, Hclass, Hpass.
  exists u, am, p. rewrite Hreq'.
  destruct (String.eqb_spec (Project.userid p) (sub u)) as [Hs|Hs];
    destruct (String.eqb_spec (Project.userid p) (studentid (params req)))
      as [Hm|Hm];
    cbn [andb snd] in Hpass; try discriminate Hpass.
  repeat split; assumption.
Qed.

(** ** The managed-class check *)

(** X18: The managed-class check looks at the class of the path only: it
    never changes the request, never throws, and two requests for the
    same class get the same outcome, with or without a principal. *)
Theorem ensureUnmanaged_class_only (req other : Request) :
  fst (ensureUnmanaged req) = req
  /\ (forall e, snd (ensureUnmanaged req) <> Throw e)
  /\ (classid (params req) = classid (params other) ->
      snd (ensureUnmanaged req) = snd (ensureUnmanaged other)).
Proof.
  unfold ensureUnmanaged. cbv zeta. split; [|split].
  - destruct (getClassTenant (classid (params req))) as [policy|err];
      cbn [bind try_catch]; [destruct (ClassTenant.isManaged policy)|];
      reflexivity.
  - intros e.
    destruct (getClassTenant (classid (params req))) as [policy|err];
      cbn [bind try_catch]; [destruct (ClassTenant.isManaged policy)|];
      discriminate.
  - intros <-.
    destruct (getClassTenant (classid (params req))) as [policy|err];
      cbn [bind try_catch]; [destruct (ClassTenant.isManaged policy)|];
      reflexivity.
Qed.

End Resources.

(** ** Instances of the further properties *)

Lemma bearer_scheme_iff_prefix_witness :
  strict_eq (nth_error (split "Bearer alice.jwt" " "%char) 0) (Some "Bearer") = true.
Proof.
  apply (proj2 (bearer_scheme_iff_prefix "Bearer alice.jwt")).
  right. exists "alice.jwt". reflexivity.
Defined.

Lemma bearer_token_piece_witness :
  nth_error (split "Bearer alice.jwt trailing words" " "%char) 1 = Some "alice.jwt".
Proof.
  apply (proj2 (proj2 (bearer_token_piece "")) "alice.jwt" "trailing words").
  reflexivity.
Defined.

Lemma authenticate_other_class_delegates_witness :
  let req := Demo.request "apple" "alice" "" (Some (HStr "Bearer alice.jwt")) None in
  classid (params req) <> Demo.CLASS_NAME
  /\ authenticate Demo.CLASS_NAME Demo.jwtDecode Demo.checkSessionToken
       Demo.auth0Authenticate req
     = Demo.auth0Authenticate req.
Proof.
  cbv zeta.
  assert (Hclass : "apple" <> Demo.CLASS_NAME) by discriminate.
  split; [exact Hclass|].
  apply (authenticate_other_class_delegates Demo.CLASS_NAME Demo.jwtDecode
           Demo.checkSessionToken Demo.auth0Authenticate
           (Demo.request "apple" "alice" "" (Some (HStr "Bearer alice.jwt")) None)).
  exact Hclass.
Defined.

Lemma authenticate_bearer_takes_session_path_witness :
  let req := Demo.request "session-users" "mallory" ""
               (Some (HStr "Bearer alice.jwt")) None in
  authenticate Demo.CLASS_NAME Demo.jwtDecode Demo.checkSessionToken
    Demo.auth0Authenticate req
  = sessionusersAuthenticate Demo.CLASS_NAME Demo.jwtDecode Demo.checkSessionToken
      (Some "alice.jwt") req.
Proof.
  cbv zeta.
  apply (authenticate_bearer_takes_session_path Demo.CLASS_NAME Demo.jwtDecode
           Demo.checkSessionToken Demo.auth0Authenticate
           (Demo.request "session-users" "mallory" ""
              (Some (HStr "Bearer alice.jwt")) None)
           "Bearer alice.jwt").
  - reflexivity.
  - split; reflexivity.
Defined.

Lemma sessionusersAuthenticate_sound_witness :
  let req := Demo.request "session-users" "alice" "" None None in
  exists decoded,
    Demo.jwtDecode (Some "alice.jwt") = Normal (PayloadObject decoded)
    /\ Demo.checkSessionToken "alice" (TemporaryUser.token decoded) = Normal true
    /\ user (fst (sessionusersAuthenticate Demo.CLASS_NAME Demo.jwtDecode
                    Demo.checkSessionToken (Some "alice.jwt") req))
       = Some {| sub := TemporaryUser.id decoded;
                 app_metadata :=
                   Some {| role := Some "student"; tenant := Some "session-users" |};
                 session := Some decoded;
                 claims := [] |}.
Proof.
  cbv zeta.
  destruct (proj1 (sessionusersAuthenticate_sound Demo.CLASS_NAME Demo.jwtDecode
                     Demo.checkSessionToken (Some "alice.jwt")
                     (Demo.request "session-users" "alice" "" None None))
              eq_refl)
    as (decoded & Hdec & Hchk & Huser & _).
  exists decoded. split; [exact Hdec | split; [exact Hchk | exact Huser]].
Defined.

Lemma session_principal_checkValidUser_witness :
  let req := Demo.request "session-users" "alice" "" None None in
  let req' := fst (sessionusersAuthenticate Demo.CLASS_NAME Demo.jwtDecode
                     Demo.checkSessionToken (Some "alice.jwt") req) in
  checkValidUser req' = (req', Next).
Proof.
  cbv zeta.
  apply (proj1 (session_principal_checkValidUser Demo.CLASS_NAME Demo.jwtDecode
                  Demo.checkSessionToken (Some "alice.jwt")
                  (Demo.request "session-users" "alice" "" None None)
                  _ eq_refl)).
  reflexivity.
Defined.

Lemma session_principal_role_gates_witness :
  let req := Demo.request "session-users" "alice" "" None None in
  let req' := fst (sessionusersAuthenticate Demo.CLASS_NAME Demo.jwtDecode
                     Demo.checkSessionToken (Some "alice.jwt") req) in
  requireSupervisor req' = (req', Respond supervisorOnly)
  /\ requireSiteAdmin req' = (req', Respond (status_json 403 "Forbidden")).
Proof.
  cbv zeta.
  apply (session_principal_role_gates Demo.CLASS_NAME Demo.jwtDecode
           Demo.checkSessionToken (Some "alice.jwt")
           (Demo.request "session-users" "alice" "" None None)
           _ eq_refl).
Defined.

Lemma checkValidUser_tenant_source_witness :
  snd (checkValidUser (Demo.request "apple" "" "" None (Some Demo.teacher))) = Next
  /\ snd (checkValidUser (Demo.request "banana" "" "" None (Some Demo.bob)))
     = Respond forbidden.
Proof.
  split.
  - apply (proj1 (checkValidUser_tenant_source
                    (Demo.request "apple" "" "" None (Some Demo.teacher))
                    Demo.teacher eq_refl)).
    reflexivity.
  - apply (proj2 (checkValidUser_tenant_source
                    (Demo.request "banana" "" "" None (Some Demo.bob))
                    Demo.bob eq_refl)).
    simpl. discriminate.
Defined.

Lemma requireSupervisor_throws_iff_witness :
  exists e,
    snd (requireSupervisor (Demo.request "apple" "" "" None (Some Demo.teacher)))
    = Throw e.
Proof.
  apply (proj2 (requireSupervisor_throws_iff
                  (Demo.request "apple" "" "" None (Some Demo.teacher)))).
  right. exists Demo.teacher. split; reflexivity.
Defined.

Lemma checkValidUser_then_requireSupervisor_witness :
  let req' := fst (checkValidUser
                     (Demo.request "apple" "" "" None (Some Demo.teacher))) in
  fst (requireSupervisor req') = req'
  /\ (snd (requireSupervisor req') = Next
      \/ snd (requireSupervisor req') = Respond supervisorOnly).
Proof.
  apply (checkValidUser_then_requireSupervisor
           (Demo.request "apple" "" "" None (Some Demo.teacher))).
  reflexivity.
Defined.

Lemma requireSiteAdmin_outcomes_witness :
  snd (requireSiteAdmin (Demo.request "apple" "" "" None (Some Demo.teacher)))
  = Respond (status_json 403 "Forbidden")
  /\ snd (requireSiteAdmin (Demo.request "apple" "" "" None None))
     = Throw (TypeError_undefined "app_metadata").
Proof.
  split.
  - rewrite (proj2 (proj1 (requireSiteAdmin_outcomes
                             (Demo.request "apple" "" "" None (Some Demo.teacher)))
                      Demo.teacher eq_refl)).
    + reflexivity.
    + simpl. discriminate.
  - rewrite (proj2 (requireSiteAdmin_outcomes
                      (Demo.request "apple" "" "" None None)) eq_refl).
    reflexivity.
Defined.

Lemma verifyProjectAuth_attaches_class_project_witness :
  let req := Demo.request "apple" "auth0|teacher" "p2" None
               (Some Demo.teacher_normalized) in
  exists p,
    Demo.getProject "p2" = Normal (Some p)
    /\ Project.classid p = "apple"
    /\ project (fst (verifyProjectAuth Demo.getProject req true)) = Some p.
Proof.
  cbv zeta.
  destruct (proj1 (verifyProjectAuth_attaches_class_project Demo.getProject
                     (Demo.request "apple" "auth0|teacher" "p2" None
                        (Some Demo.teacher_normalized)) true)
              eq_refl)
    as (p & Hget & Hclass & Hproject & _).
  exists p. split; [exact Hget | split; [exact Hclass | exact Hproject]].
Defined.

Lemma verifyProjectAuth_outcome_kinds_witness :
  snd (verifyProjectAuth Demo.getProject
         (Demo.request "apple" "auth0|bob" "faulty" None (Some Demo.bob)) false)
  = NextErr Demo.StoreError
  /\ Demo.getProject "p1" <> Thrown Demo.StoreError.
Proof.
  split.
  - apply (proj2 (proj2 (verifyProjectAuth_outcome_kinds Demo.getProject
                           (Demo.request "apple" "auth0|bob" "faulty" None
                              (Some Demo.bob)) false)) Demo.StoreError).
    reflexivity.
  - intros Hthrown.
    apply (proj2 (proj2 (verifyProjectAuth_outcome_kinds Demo.getProject
                           (Demo.request "apple" "auth0|bob" "p1" None
                              (Some Demo.bob)) false)) Demo.StoreError) in Hthrown.
    discriminate Hthrown.
Defined.

Lemma verifyProjectAuth_passes_iff_witness :
  snd (verifyProjectAuth Demo.getProject
         (Demo.request "apple" "auth0|bob" "p1" None (Some Demo.bob)) false)
  = Next.
Proof.
  apply (proj2 (verifyProjectAuth_passes_iff Demo.getProject
                  (Demo.request "apple" "auth0|bob" "p1" None (Some Demo.bob))
                  false Demo.bob eq_refl)).
  exists Demo.bobs_project.
  split; [reflexivity|]. split; [reflexivity|].
  left. split; reflexivity.
Defined.


Lemma checkValidUser_then_verifyProjectOwner_witness :
  exists u am p,
    user (fst (checkValidUser
                 (Demo.request "apple" "auth0|bob" "p1" None (Some Demo.bob))))
    = Some u
    /\ app_metadata u = Some am
    /\ tenant am = Some "apple"
    /\ Demo.getProject "p1" = Normal (Some p)
    /\ Project.classid p = "apple"
    /\ Project.userid p = sub u
    /\ Project.userid p = "auth0|bob".
Proof.
  apply (checkValidUser_then_verifyProjectOwner Demo.getProject
           (Demo.request "apple" "auth0|bob" "p1" None (Some Demo.bob)));
    reflexivity.
Defined.

Lemma ensureUnmanaged_class_only_witness :
  snd (ensureUnmanaged Demo.getClassTenant
         (Demo.request "managed" "" "" None None))
  = snd (ensureUnmanaged Demo.getClassTenant
           (Demo.request "managed" "auth0|teacher" "p1"
              (Some (HStr "Bearer x")) (Some Demo.teacher_normalized))).
Proof.
  apply (proj2 (proj2 (ensureUnmanaged_class_only Demo.getClassTenant
                         (Demo.request "managed" "" "" None None)
                         (Demo.request "managed" "auth0|teacher" "p1"
                            (Some (HStr "Bearer x"))
                            (Some Demo.teacher_normalized))))).
  reflexivity.
Defined.

(** ** The chain for a session user *)

Section SessionChain.

Variable CLASS_NAME : string.
Variable jwtDecode : option string -> Completion Payload.
Variable checkSessionToken : string -> string -> Completion bool.
Variable auth0Authenticate : Request -> Handled.
Variable getProject : string -> Completion (option Project.t).

Local Abbreviation authenticate :=
  (authenticate CLASS_NAME jwtDecode checkSessionToken auth0Authenticate).
Local Abbreviation sessionusersAuthenticate :=
  (sessionusersAuthenticate CLASS_NAME jwtDecode checkSessionToken).
Local Abbreviation verifyProjectAuth := (verifyProjectAuth getProject).

Lemma authenticate_session_guard (req : Request) (h : string) :
  classid (params req) = CLASS_NAME ->
  well_formed_bearer (headers_authorization req) h ->
  authenticate req
  = sessionusersAuthenticate (nth_error (split h " "%char) 1) req.
Proof.
  intros Hclass [Hhdr Hscheme].
  unfold authenticate. cbv zeta.
  rewrite Hhdr, Hclass, String.eqb_refl, (bearer_is_truthy h Hscheme).
  cbn [header_split typeof_string andb].
  apply (proj2 (strict_eq_true_iff _ _)) in Hscheme. now rewrite Hscheme.
Qed.

(** X19: When [authenticate] lets a bearer request for the reserved class
    through, the class check on the request it leaves calls [next()]
    too, and a project check after it calls [next()] only for a
    project of the reserved class that either belongs to the decoded
    session id, which is then also the member of the path, or is
    crowd-sourced with shared access allowed. *)
Theorem authenticate_session_chain
        (req req' : Request) (h : string) (isCrowdSourcedAllowed : bool) :
  classid (params req) = CLASS_NAME ->
  well_formed_bearer (headers_authorization req) h ->
  authenticate req = (req', Next) ->
  checkValidUser req' = (req', Next)
  /\ (snd (verifyProjectAuth req' isCrowdSourcedAllowed) = Next ->
      exists decoded p,
        jwtDecode (nth_error (split h " "%char) 1) = Normal (PayloadObject decoded)
        /\ getProject (projectid (params req)) = Normal (Some p)
        /\ Project.classid p = CLASS_NAME
        /\ ((Project.userid p = TemporaryUser.id decoded
             /\ Project.userid p = studentid (params req))
            \/ (isCrowdSourcedAllowed = true
                /\ Project.isCrowdSourced p = true))).
Proof.
  intros Hclass Hhdr Hrun.
  rewrite (authenticate_session_guard req h Hclass Hhdr) in Hrun.
  destruct (sessionusersAuthenticate_next_inv CLASS_NAME jwtDecode
              checkSessionToken _ req req' Hrun)
    as (decoded & Hdec & _ & ->).
  split.
  - unfold checkValidUser, getValuesFromToken. cbn.
    rewrite Hclass, String.eqb_refl. reflexivity.
  - intros Hpass.
    destruct (verifyProjectAuth_next_inv getProject _ _ Hpass)
      as (p & Hget & Hpclass & _).
    rewrite (verifyProjectAuth_resolved getProject _ _ p Hget Hpclass) in Hpass.
    cbn [user set_user sub params studentid] in Hpass, Hget, Hpclass.
    exists decoded, p.
    split; [exact Hdec|]. split; [exact Hget|].
    split; [now rewrite Hpclass|].
    destruct (String.eqb_spec (Project.userid p) (TemporaryUser.id decoded))
      as [Hs|Hs];
      destruct (String.eqb_spec (Project.userid p) (studentid (params req)))
        as [Hm|Hm];
      cbn [andb] in Hpass; try (left; split; assumption);
      destruct isCrowdSourcedAllowed, (Project.isCrowdSourced p);
      cbn [andb snd] in Hpass; try discriminate Hpass;
      right; split; reflexivity.
Qed.

End SessionChain.

Lemma authenticate_session_chain_witness :
  let req := Demo.request "session-users" "alice" "p1"
               (Some (HStr "Bearer alice.jwt")) None in
  let req' := fst (authenticate Demo.CLASS_NAME Demo.jwtDecode
                     Demo.checkSessionToken Demo.auth0Authenticate req) in
  checkValidUser req' = (req', Next).
Proof.
  cbv zeta.
  apply (authenticate_session_chain Demo.CLASS_NAME Demo.jwtDecode
           Demo.checkSessionToken Demo.auth0Authenticate Demo.getProject
           (Demo.request "session-users" "alice" "p1"
              (Some (HStr "Bearer alice.jwt")) None)
           _ "Bearer alice.jwt" false).
  - reflexivity.
  - split; reflexivity.
  - reflexivity.
Defined.
